(* ===== verification/_CoqProject ===== *)
-Q . S2P
Prelude.v
Frame.v
Plotly.v
Callbacks.v
FilterSpec.v
Layout.v
Reactive.v
App.v
Loader.v
Main.v
