(* ===== verification/Prelude.v ===== *)
(** * SpaceX launch dashboard: a verification library for src/spacex-dash-app.py

    ** The program
    [src/spacex-dash-app.py] is a Dash application of 95 lines.  At
    start-up it reads [spacex_launch_dash.csv] into the pandas DataFrame
    [spacex_df] (line 9) and computes [min_payload] and [max_payload], the
    NaN-skipping minimum and maximum of the payload column (lines 10-11).
    Its layout (lines 17-48) holds a dropdown [site-dropdown] whose options
    are 'ALL' followed by the distinct launch sites in order of first
    appearance, a range slider [payload-slider] (bounds 0..10000, step 1000,
    initial value [[min_payload, max_payload]]) and two graphs.  Two
    callbacks are registered with Dash:
    - [get_pie_chart] (lines 51-66), input [site-dropdown]: a plotly
      express pie of the successes per site ('ALL'), or of the outcome
      counts of the selected site;
    - [get_scatter_plot] (lines 69-91), inputs [site-dropdown] and
      [payload-slider]: the rows of the selected site(s) whose payload lies
      in the slider range, plotted payload against outcome, one trace per
      booster version category.
    Dash, the reactive binding layer, runs every callback at page load,
    re-runs a callback when one of its inputs changes, and writes the
    returned figure into the output; a callback that raises leaves its
    output as it was.  [app.run] (line 95) serves the page.

    ** Files, in dependency order
    - [Prelude.v] (this file): the Python exceptions the program raises
      ([py_error]) and the [result] monad (stdpp's [≫=] and [←] notation),
      the scope [dash_scope] ([raise e]), the tactic [bool_to_prop], the hint databases [dash] and [dash_rw], and the list
      lemmas the components share (sums, filters, [nth] over [seq]).
    - [Frame.v], Module [Frame]: the pandas layer.  A row is the record
      [launch] of the four columns the code reads ([payload_mass] is
      [None] for NaN); the Series operations are [series_eq] ([== site],
      False against [None]), [series_ge]/[series_le] ([>= low]/[<= high],
      False on a NaN cell and everywhere against a null bound, as pandas'
      [comparison_op] gives for a missing scalar), [series_and] ([&]),
      [select] ([df[mask]]), [series_min]/[series_max] (skipna) and
      [unique] (first occurrences).
    - [Plotly.v], Module [Plotly]: the figures: [px_pie] and [px_scatter]
      as the callbacks call them, and [pie_slices], the merging of
      duplicate pie labels of spec section 4.2 (one slice per label, its
      values summed, or counted without [values]), written as a one-pass
      loop ([add_slice], [pie_calc_go]) and proved equal to a grouping by
      label ([group_totals]), the lemma the pie theorems use.
    - [Callbacks.v], Module [Callbacks]: [get_pie_chart] and
      [get_scatter_plot], line by line, over the frame passed explicitly
      (the module global [spacex_df] of the code).
    - [FilterSpec.v], Module [FilterSpec]: the spec's Filter Engine
      (section 4.1) as [spec_filter] over the spec's [selector], and the
      masks of [get_scatter_plot] against it.
    - [Layout.v], Module [Layout]: [app.layout] as a record, [min_payload],
      [max_payload], the dropdown options and the slider, and the values a
      user can send through the two controls (an option value or [None];
      two handles, each on the step grid or on a mark).
    - [Reactive.v], Module [Reactive]: the callback dispatch of Dash,
      generic in the callbacks (a Section whose hypothesis
      [callback_local] is the interface an app discharges): [initial],
      [step], [fire] and the inductive [reachable] of a session;
      [shown_consistent] (the shown figures are the callbacks' results)
      and [shown_never_filled] (an output whose callback always raises
      stays blank), both by induction on [reachable].
    - [App.v], Module [App]: the two registrations of the program as an
      instance of [Reactive] (inputs, outputs, [deps] from the decorators,
      [callback]), with the theorems that hold in every reachable state.
    - [Loader.v], Module [Loader]: the DataFrame [spacex_df] as the four
      columns the program names, each present or absent ([table]), its
      rows ([launches]), the column reads [spacex_df[...]] with their
      [KeyError] ([site_series], [payload_series]), plotly express's
      check of the columns it is given ([px_columns], [ValueError]), the
      module-level start-up (lines 10-11, 17-48: [startup]) and the two
      callbacks over the DataFrame ([table_pie], [table_scatter],
      [table_callback]).
    - [Main.v], Module [Main]: the module as Python runs it on the
      DataFrame line 9 read ([run_module]): the start-up, the application
      object of line 14 ([dash_app]), and the [__main__] guard of lines
      93-95 with the server configuration [app.run] is given ([server]).
      It holds definitions only.

    ** What the theorems show (claims C1-C18 of the manifest)
    - The running dashboard (App): the shown figures agree with the
      callbacks on the current inputs in every reachable state (C1); the
      slider always holds two items, so the scatter callback never raises
      and the scatter graph always shows its figure, and the slider holds
      a null only as the initial value on a payload-less frame (C6); every
      point drawn has a known payload inside the slider range (C7); the
      pie does not depend on the slider (C8).
    - The callbacks: [get_scatter_plot] on every slider value (C2): the
      selected rows in range for two numbers, an empty scatter for a null
      bound, [ValueError] otherwise; it implements the Filter Engine
      except for a site named 'ALL' (C3), for which it plots every site
      (C14); the slices of the pie in 'ALL' mode (C4) and single-site mode
      (C5, C9); a cleared dropdown (C12); an empty selection (an absent
      site, an inverted range) gives empty figures, not an error (C15);
      the payload bounds are inclusive: every selected launch in range is
      drawn in its category's trace (C16).
    - The layout: [min_payload]/[max_payload] (C10), the initial slider
      value inside the slider's bounds (C11), the dropdown values (C13).
    - Loading (Loader): start-up succeeds exactly when the CSV has the
      payload and site columns and then builds [app_layout] of the rows
      (C17); a CSV without [class] (or the booster category) starts but
      leaves both graphs (or the scatter) blank for the whole session
      (C18).
    Theorems with hypotheses have witnesses ([..._witness], closed by
    evaluation) on small frames built from rows of the CSV.

    ** Modelling choices
    Payload masses are whole kilograms in [Z] and the outcome column an
    integer.  Every function of the program is structurally recursive:
    each loop of the code is a pass over a finite list, so no fuel is
    needed.  Exceptions are values of [result].  The frame is an argument,
    so the theorems hold for every CSV content; well-formedness
    ([class_ok]: outcomes 0 or 1) is a hypothesis where a theorem needs
    it.  Dash dispatch is modelled as one round of callbacks per event
    ([Reactive.step]), which is what Dash does for an app none of whose
    outputs is an input, as here.

    ** Not modelled
    - [pd.read_csv] itself (line 9): the parsing of the file's text, its
      NA markers, the padding of short rows and the dtype inference.  The
      development starts from the DataFrame it returns ([Loader.table]),
      and a missing or unreadable file is an I/O error.
    - Serving HTTP requests ([app.run] is modelled as the configuration
      it starts; the requests are the events of [Reactive]).
    - The HTML rendering, and the styles and drawing of the figures
      (colours, axes, slice sorting).
    - Dash's propagation through chains of callbacks (none in this app),
      and the network between browser and server.  Dash sessions are
      independent and the frame is read-only, so one session is
      modelled. *)

From Stdlib Require Export ZArith String List.
From stdpp Require Export base list strings decidable sets.
Export ListNotations.

Declare Scope dash_scope.
Delimit Scope dash_scope with dash.
Open Scope Z_scope.

Create HintDb dash discriminated.
Create Rewrite HintDb dash_rw.

(** ** Errors of the Python callbacks

    A callback either returns a value or raises.  The exceptions the
    program can raise are [ValueError] (unpacking the slider value
    [low, high = payload_range] when it does not hold exactly two items;
    plotly express given a column name the frame does not have) and
    [KeyError]
    ([spacex_df[name]] for a column the CSV does not have). *)

Inductive py_error := ValueError | KeyError.

Inductive result (A : Type) : Type :=
| Ok (a : A)
| Err (e : py_error).
Arguments Ok {A} a.
Arguments Err {A} e.

#[export] Instance result_ret : MRet result := fun _ a => Ok a.
#[export] Instance result_bind : MBind result :=
  fun _ _ k m => match m with Ok a => k a | Err e => Err e end.

Notation "'raise' e" := (Err e) (at level 10) : dash_scope.

#[export] Instance py_error_eq_dec : EqDecision py_error.
Proof. solve_decision. Defined.

Definition is_ok {A} (r : result A) : bool :=
  match r with Ok _ => true | Err _ => false end.

(** A computation whose continuation always raises raises. *)
Lemma bind_never_ok {A B} (m : result A) (k : A -> result B) :
  (forall a, is_ok (k a) = false) -> is_ok (m ≫= k) = false.
Proof. destruct m; simpl; auto. Qed.

Lemma bind_not_ok {A B} (m : result A) (k : A -> result B) :
  is_ok m = false -> is_ok (m ≫= k) = false.
Proof. by destruct m. Qed.

(** ** Tactics *)

(** Turn the boolean tests produced by the executable definitions into
    propositions that [lia] and [congruence] read. *)
Ltac bool_to_prop :=
  repeat match goal with
  | H : (_ && _)%bool = true |- _ => apply andb_true_iff in H as [? ?]
  | H : Z.leb _ _ = true |- _ => apply Z.leb_le in H
  | H : Z.leb _ _ = false |- _ => apply Z.leb_gt in H
  | H : Z.ltb _ _ = true |- _ => apply Z.ltb_lt in H
  | H : Z.ltb _ _ = false |- _ => apply Z.ltb_ge in H
  | H : bool_decide _ = true |- _ => apply bool_decide_eq_true in H
  | H : bool_decide _ = false |- _ => apply bool_decide_eq_false in H
  end.

(** ** Sums of integer lists *)

Definition sumZ (l : list Z) : Z := fold_right Z.add 0 l.

Lemma sumZ_app l1 l2 : sumZ (l1 ++ l2) = sumZ l1 + sumZ l2.
Proof. induction l1 as [|x l1 IH]; simpl; lia. Qed.

Lemma sumZ_ones {A} (l : list A) : sumZ (map (fun _ => 1) l) = Z.of_nat (length l).
Proof. induction l as [|x l IH]; simpl; lia. Qed.

#[export] Hint Rewrite sumZ_app @sumZ_ones : dash_rw.

(** Reading a list back by index. *)
Lemma map_nth_seq {A} (xs : list A) (d : A) :
  map (fun k => nth k xs d) (seq 0 (length xs)) = xs.
Proof.
  induction xs as [|x xs IH]; [done|]. simpl. f_equal.
  rewrite <- seq_shift, map_map. exact IH.
Qed.

(** ** Generic lemmas on [List.filter] and [map] *)

Section ListLemmas.
Context {A : Type}.

Lemma filter_ext_in (p q : A -> bool) (l : list A) :
  (forall x, In x l -> p x = q x) -> List.filter p l = List.filter q l.
Proof.
  induction l as [|x l IH]; intros H; simpl; [done|].
  rewrite (H x (or_introl eq_refl)), IH by (intros; apply H; right; done).
  done.
Qed.

Lemma filter_nil_iff (p : A -> bool) (l : list A) :
  List.filter p l = [] <-> forall x, In x l -> p x = false.
Proof.
  induction l as [|x l IH]; simpl; [tauto|].
  destruct (p x) eqn:Hp; split.
  - discriminate.
  - intros H. rewrite H in Hp by tauto. discriminate.
  - intros Hnil y [<-|Hy]; [done|]. by apply IH.
  - intros H. apply IH. intros y Hy. apply H. tauto.
Qed.

Lemma filter_length_le (p : A -> bool) (l : list A) :
  (length (List.filter p l) <= length l)%nat.
Proof. induction l as [|x l IH]; simpl; [lia|]. destruct (p x); simpl; lia. Qed.

Lemma filter_filter_andb (p q : A -> bool) (l : list A) :
  List.filter p (List.filter q l) = List.filter (fun x => q x && p x)%bool l.
Proof.
  induction l as [|x l IH]; simpl; [done|].
  destruct (q x); simpl; [destruct (p x); simpl|]; congruence.
Qed.

End ListLemmas.

#[export] Hint Resolve filter_length_le : dash.
