(* ===== verification/Frame.v ===== *)
(** * Frame: the pandas layer of the dashboard

    The rows of [spacex_df] (src/spacex-dash-app.py, line 9) restricted to
    the four columns the program reads, the Series operations the code
    applies to them (comparison with NaN semantics, [&] of masks, boolean
    indexing [df[mask]], [Series.min]/[Series.max] with [skipna],
    [Series.unique]), and the start-up globals [min_payload] and
    [max_payload] (lines 10-11). *)

From S2P Require Import Prelude.

Module Frame.

(** One row of the CSV.  [payload_mass] is [None] where the cell is NaN
    (a missing payload); masses are whole kilograms. *)
Record launch := mk_launch {
  launch_site : string;
  payload_mass : option Z;
  class : Z;
  booster_version_category : string
}.

#[export] Instance launch_eq_dec : EqDecision launch.
Proof. solve_decision. Defined.

Abbreviation frame := (list launch).

(** ** Series operations *)

(** [df['Launch Site'] == entered_site]: a cleared dropdown sends [None],
    and comparing a string Series with [None] is False everywhere. *)
Definition series_eq (s : list string) (v : option string) : list bool :=
  map (fun x => match v with Some v => bool_decide (x = v) | None => false end) s.

(** [df['Payload Mass (kg)'] >= low] and [... <= high]: a NaN cell
    compares False, and so does every cell against a null bound: pandas'
    [comparison_op] returns an all-False mask for a missing scalar, as
    [series_eq] does for a cleared dropdown. *)
Definition series_ge (s : list (option Z)) (low : option Z) : list bool :=
  map (fun x => match x, low with Some x, Some lo => Z.leb lo x | _, _ => false end) s.

Definition series_le (s : list (option Z)) (high : option Z) : list bool :=
  map (fun x => match x, high with Some x, Some hi => Z.leb x hi | _, _ => false end) s.

(** [m1 & m2] on two masks over the same index. *)
Definition series_and (m1 m2 : list bool) : list bool := zip_with andb m1 m2.

(** Boolean indexing [df[mask]]: the rows whose mask entry is True, in
    order. *)
Fixpoint select (df : frame) (mask : list bool) : frame :=
  match df, mask with
  | r :: df', b :: mask' => if b then r :: select df' mask' else select df' mask'
  | _, _ => []
  end.

(** [Series.min()] / [Series.max()] with the default [skipna=True]: NaN
    cells are skipped, and the result is NaN ([None]) when no cell is a
    number. *)
Definition nan_reduce (op : Z -> Z -> Z) (s : list (option Z)) : option Z :=
  fold_right (fun x acc =>
    match x, acc with
    | Some x, Some a => Some (op x a)
    | Some x, None => Some x
    | None, acc => acc
    end) None s.

Definition series_min (s : list (option Z)) : option Z := nan_reduce Z.min s.
Definition series_max (s : list (option Z)) : option Z := nan_reduce Z.max s.

(** [Series.unique()]: the distinct values in order of first appearance
    (pandas keeps a hash table of the values already seen). *)
Section Unique.
Context {A : Type} `{EqDecision A}.

Fixpoint unique_go (seen : list A) (l : list A) : list A :=
  match l with
  | [] => []
  | x :: l' =>
      if decide (x ∈ seen) then unique_go seen l'
      else x :: unique_go (x :: seen) l'
  end.

Definition unique (l : list A) : list A := unique_go [] l.

Lemma elem_of_unique_go seen l x :
  x ∈ unique_go seen l <-> x ∈ l /\ x ∉ seen.
Proof.
  revert seen; induction l as [|y l IH]; intros seen; simpl.
  - set_solver.
  - case_decide as Hy.
    + rewrite IH, elem_of_cons. split; [tauto|].
      intros [[->|?] ?]; [done|tauto].
    + rewrite !elem_of_cons, IH, not_elem_of_cons.
      destruct (decide (x = y)) as [->|]; tauto.
Qed.

Lemma NoDup_unique_go seen l : NoDup (unique_go seen l).
Proof.
  revert seen; induction l as [|y l IH]; intros seen; simpl.
  - constructor.
  - case_decide; [done|]. constructor; [|done].
    rewrite elem_of_unique_go. set_solver.
Qed.

Lemma unique_go_snoc seen l x :
  unique_go seen (l ++ [x]) =
  unique_go seen l ++ (if decide (x ∈ seen ++ l) then [] else [x]).
Proof.
  revert seen; induction l as [|y l IH]; intros seen; simpl.
  - rewrite app_nil_r. by case_decide.
  - case_decide; rewrite IH; simpl; f_equal; f_equal;
      repeat case_decide; set_solver.
Qed.

Lemma elem_of_unique l x : x ∈ unique l <-> x ∈ l.
Proof. unfold unique. rewrite elem_of_unique_go. set_solver. Qed.

Lemma NoDup_unique l : NoDup (unique l).
Proof. apply NoDup_unique_go. Qed.

Lemma unique_snoc l x :
  unique (l ++ [x]) = if decide (x ∈ l) then unique l else unique l ++ [x].
Proof.
  unfold unique. rewrite unique_go_snoc. simpl.
  repeat case_decide; rewrite ?app_nil_r; tauto.
Qed.

End Unique.

Section UniqueMap.
Context {A B : Type} `{EqDecision A} `{EqDecision B} (f : A -> B) `{!Inj eq eq f}.

Lemma elem_of_map_inj x l : f x ∈ map f l <-> x ∈ l.
Proof.
  rewrite !list_elem_of_In, in_map_iff. split.
  - intros (y & Hy & Hin). apply (inj f) in Hy. by subst.
  - intros Hin. by exists x.
Qed.

Lemma unique_go_map seen l :
  unique_go (map f seen) (map f l) = map f (unique_go seen l).
Proof.
  revert seen; induction l as [|x l IH]; intros seen; simpl; [done|].
  rewrite (decide_ext (f x ∈ map f seen) (x ∈ seen)) by apply elem_of_map_inj.
  case_decide; simpl; [apply IH|]. f_equal. apply (IH (x :: seen)).
Qed.

(** [unique] commutes with an injective relabelling. *)
Lemma unique_map l : unique (map f l) = map f (unique l).
Proof. apply (unique_go_map []). Qed.

End UniqueMap.

(** ** Masks and selection *)

Lemma series_and_map {B} (p q : B -> bool) (l : list B) :
  series_and (map p l) (map q l) = map (fun x => p x && q x)%bool l.
Proof. unfold series_and. induction l as [|x l IH]; simpl; congruence. Qed.

(** Selecting with a mask computed row by row is [filter]. *)
Lemma select_map (p : launch -> bool) (df : frame) :
  select df (map p df) = List.filter p df.
Proof. induction df as [|r df IH]; simpl; [done|]. by rewrite IH. Qed.

Lemma series_ge_Some s lo :
  series_ge s (Some lo) = map (fun x => match x with Some x => Z.leb lo x | None => false end) s.
Proof. apply map_ext. by intros []. Qed.

Lemma series_le_Some s hi :
  series_le s (Some hi) = map (fun x => match x with Some x => Z.leb x hi | None => false end) s.
Proof. apply map_ext. by intros []. Qed.

Lemma series_ge_None s : series_ge s None = map (fun _ => false) s.
Proof. apply map_ext. by intros []. Qed.

Lemma series_le_None s : series_le s None = map (fun _ => false) s.
Proof. apply map_ext. by intros []. Qed.

#[export] Hint Rewrite @series_and_map select_map series_ge_Some series_le_Some
  series_ge_None series_le_None
  @map_map : dash_rw.

(** ** NaN-skipping reductions *)

Section NanReduce.
Variable op : Z -> Z -> Z.
Hypothesis op_sel : forall x y, op x y = x \/ op x y = y.

Lemma nan_reduce_None s : nan_reduce op s = None <-> forall x, In x s -> x = None.
Proof.
  induction s as [|[x|] s IH]; simpl.
  - split; [intros _ ? []|done].
  - split; [by destruct (nan_reduce op s)|].
    intros H. specialize (H _ (or_introl eq_refl)). discriminate.
  - rewrite IH. split; [intros H y [<-|Hy]; auto | intros H y Hy; auto].
Qed.

Lemma nan_reduce_attained s m : nan_reduce op s = Some m -> In (Some m) s.
Proof.
  revert m; induction s as [|[x|] s IH]; intros m; simpl; [discriminate| |auto].
  destruct (nan_reduce op s) as [a|]; intros [= <-]; [|auto].
  destruct (op_sel x a) as [->| ->]; [auto|right; by apply IH].
Qed.

Variable R : Z -> Z -> Prop.
Hypothesis R_refl : forall x, R x x.
Hypothesis R_trans : forall x y z, R x y -> R y z -> R x z.
Hypothesis op_l : forall x y, R (op x y) x.
Hypothesis op_r : forall x y, R (op x y) y.

Lemma nan_reduce_bound s m x :
  nan_reduce op s = Some m -> In (Some x) s -> R m x.
Proof.
  revert m; induction s as [|[y|] s IH]; intros m; simpl; [tauto| |].
  2:{ intros Hm [Hx|Hx]; [discriminate|]. by apply IH. }
  destruct (nan_reduce op s) as [a|] eqn:Ha; intros [= <-] [[= ->]|Hx].
  - apply op_l.
  - eapply R_trans; [apply op_r|]. by apply IH.
  - apply R_refl.
  - exfalso. pose proof (proj1 (nan_reduce_None s) Ha (Some x) Hx). discriminate.
Qed.

End NanReduce.

Lemma series_min_le s m x : series_min s = Some m -> In (Some x) s -> m <= x.
Proof. apply (nan_reduce_bound Z.min Z.le); intros; lia. Qed.

Lemma series_max_ge s m x : series_max s = Some m -> In (Some x) s -> x <= m.
Proof. apply (nan_reduce_bound Z.max (fun a b => b <= a)); intros; lia. Qed.

Lemma series_min_attained s m : series_min s = Some m -> In (Some m) s.
Proof. apply nan_reduce_attained. lia. Qed.

Lemma series_max_attained s m : series_max s = Some m -> In (Some m) s.
Proof. apply nan_reduce_attained. lia. Qed.

Lemma series_min_None s : series_min s = None <-> forall x, In x s -> x = None.
Proof. apply nan_reduce_None. Qed.

Lemma series_max_None s : series_max s = None <-> forall x, In x s -> x = None.
Proof. apply nan_reduce_None. Qed.

End Frame.
