(* ===== verification/Plotly.v ===== *)
(** * Plotly: the figures the callbacks return

    [px.pie] and [px.scatter] as the callbacks of src/spacex-dash-app.py
    call them (lines 57-65 and 81-90), the figure records they build, and
    the aggregation of a pie trace into slices that the renderer performs
    (duplicate labels are merged, their values summed, or counted when the
    trace has no [values]).  The aggregation is written the way the
    renderer computes it, one point at a time into a growing list of
    slices, and is proved equal to a reference definition (distinct labels
    in order of first appearance, each with the total of its points). *)

From S2P Require Import Prelude Frame.
Import Frame.

Module Plotly.

(** A pie label: a launch site (a string) or an outcome (the number in
    the [class] column). *)
Inductive label := LStr (s : string) | LNum (z : Z).

#[export] Instance label_eq_dec : EqDecision label.
Proof. solve_decision. Defined.

#[export] Instance LStr_inj : Inj eq eq LStr.
Proof. by intros ?? [=]. Qed.

#[export] Instance LNum_inj : Inj eq eq LNum.
Proof. by intros ?? [=]. Qed.

Record pie_fig := mk_pie {
  pie_labels : list label;
  pie_values : option (list Z);
  pie_title : string
}.

(** One trace of a scatter: its legend name (a colour group) and its
    points; an [x] of [None] is a NaN payload, which is not drawn. *)
Record trace := mk_trace {
  trace_name : string;
  trace_x : list (option Z);
  trace_y : list Z
}.

Record scatter_fig := mk_scatter {
  scatter_traces : list trace;
  scatter_title : string
}.

(** The value of a [figure] property of a [dcc.Graph]. *)
Inductive figure := FigPie (p : pie_fig) | FigScatter (s : scatter_fig).

(** [px.pie(df, names=..., values=..., title=...)]: one label per row,
    and one value per row when a [values] column is given. *)
Definition px_pie (df : frame) (names : launch -> label)
    (values : option (launch -> Z)) (title : string) : pie_fig :=
  mk_pie (map names df) (option_map (fun v => map v df) values) title.

(** The rows of one colour group, in frame order. *)
Definition color_group (color : launch -> string) (df : frame) (c : string) : frame :=
  List.filter (fun r => bool_decide (color r = c)) df.

(** [px.scatter(df, x=..., y=..., color=..., title=...)]: the frame is
    grouped by the colour column without sorting (groups in order of first
    appearance), and each group becomes one trace. *)
Definition px_scatter (df : frame) (x : launch -> option Z) (y : launch -> Z)
    (color : launch -> string) (title : string) : scatter_fig :=
  mk_scatter
    (map (fun c => let g := color_group color df c in mk_trace c (map x g) (map y g))
         (unique (map color df)))
    title.

(** ** Slices of a pie *)

(** The (label, value) points of a pie trace: the values when given, and
    1 per label otherwise. *)
Definition pie_points (p : pie_fig) : list (label * Z) :=
  match pie_values p with
  | Some vs => zip (pie_labels p) vs
  | None => map (fun l => (l, 1)) (pie_labels p)
  end.

(** Adding one point to the slices: a known label grows its slice, a new
    label opens a slice at the end. *)
Fixpoint add_slice (l : label) (v : Z) (acc : list (label * Z)) : list (label * Z) :=
  match acc with
  | [] => [(l, v)]
  | (l', v') :: acc' =>
      if decide (l = l') then (l', v' + v) :: acc' else (l', v') :: add_slice l v acc'
  end.

(** The renderer's pass over the points; a negative value is not a valid
    sector size and is skipped. *)
Fixpoint pie_calc_go (acc : list (label * Z)) (pts : list (label * Z)) : list (label * Z) :=
  match pts with
  | [] => acc
  | (l, v) :: pts' => pie_calc_go (if Z.ltb v 0 then acc else add_slice l v acc) pts'
  end.

Definition pie_slices (p : pie_fig) : list (label * Z) := pie_calc_go [] (pie_points p).

(** Reference: the points with a valid value, grouped by label. *)
Definition valid_points (pts : list (label * Z)) : list (label * Z) :=
  List.filter (fun lv => Z.leb 0 (snd lv)) pts.

Definition label_total (pts : list (label * Z)) (l : label) : Z :=
  sumZ (map snd (List.filter (fun lv => bool_decide (fst lv = l)) pts)).

Definition group_totals (pts : list (label * Z)) : list (label * Z) :=
  map (fun l => (l, label_total pts l)) (unique (map fst pts)).

(** ** Lemmas *)

Lemma label_total_snoc pts l v k :
  label_total (pts ++ [(l, v)]) k =
  label_total pts k + (if decide (l = k) then v else 0).
Proof.
  unfold label_total. rewrite List.filter_app, map_app, sumZ_app. simpl.
  case_bool_decide; case_decide; simpl; try lia; congruence.
Qed.

Lemma label_total_absent pts l :
  l ∉ map fst pts -> label_total pts l = 0.
Proof.
  intros Hl. unfold label_total.
  replace (List.filter _ pts) with (@nil (label * Z)); [done|].
  symmetry. apply filter_nil_iff. intros [l' v] Hin. simpl.
  apply bool_decide_eq_false. intros ->. apply Hl.
  apply list_elem_of_In, in_map_iff. by exists (l, v).
Qed.

(** [add_slice] on slices with distinct labels. *)
Lemma add_slice_map (g : label -> Z) keys l v :
  NoDup keys ->
  add_slice l v (map (fun k => (k, g k)) keys) =
  if decide (l ∈ keys)
  then map (fun k => (k, g k + if decide (l = k) then v else 0)) keys
  else map (fun k => (k, g k)) keys ++ [(l, v)].
Proof.
  induction keys as [|k keys IH]; intros Hnd; simpl.
  - done.
  - apply NoDup_cons in Hnd as [Hk Hnd].
    destruct (decide (l = k)) as [->|Hlk].
    + rewrite !decide_True by (try apply elem_of_cons; by left). simpl.
      f_equal. apply map_ext_in. intros k' Hk'.
      rewrite decide_False; [f_equal; lia|].
      intros ->. apply Hk. by apply list_elem_of_In.
    + rewrite IH by done. destruct (decide (l = k)); [done|]. simpl.
      destruct (decide (l ∈ keys)) as [Hin|Hin].
      * rewrite decide_True by (apply elem_of_cons; by right). simpl.
        by rewrite Z.add_0_r.
      * rewrite decide_False by (rewrite not_elem_of_cons; tauto). done.
Qed.

Lemma group_totals_snoc pts l v :
  add_slice l v (group_totals pts) = group_totals (pts ++ [(l, v)]).
Proof.
  unfold group_totals. rewrite map_app. cbn [map fst].
  rewrite unique_snoc, add_slice_map by apply NoDup_unique.
  rewrite !(decide_ext (l ∈ unique (map fst pts)) (l ∈ map fst pts))
    by apply elem_of_unique.
  case_decide as Hin.
  - apply map_ext_in. intros k _. by rewrite label_total_snoc.
  - rewrite map_app. simpl. f_equal.
    + apply map_ext_in. intros k Hk. rewrite label_total_snoc.
      rewrite decide_False; [f_equal; lia|]. intros ->.
      apply Hin, elem_of_unique, list_elem_of_In, Hk.
    + rewrite label_total_snoc, label_total_absent by done.
      by rewrite decide_True.
Qed.

Lemma pie_calc_go_fold acc pts :
  pie_calc_go acc pts =
  fold_left (fun acc lv => if Z.ltb (snd lv) 0 then acc else add_slice (fst lv) (snd lv) acc)
    pts acc.
Proof. revert acc; induction pts as [|[l v] pts IH]; intros acc; simpl; auto. Qed.

(** The renderer's pass computes the reference grouping. *)
Lemma pie_calc_go_group_totals pts :
  pie_calc_go [] pts = group_totals (valid_points pts).
Proof.
  rewrite pie_calc_go_fold.
  induction pts as [|[l v] pts IH] using rev_ind; [done|].
  rewrite fold_left_app, IH. simpl. unfold valid_points.
  rewrite List.filter_app. simpl.
  destruct (Z.ltb v 0) eqn:Hv; bool_to_prop.
  - rewrite (proj2 (Z.leb_gt 0 v)) by lia. by rewrite app_nil_r.
  - rewrite (proj2 (Z.leb_le 0 v)) by lia. apply group_totals_snoc.
Qed.

Lemma add_slice_sum l v acc :
  sumZ (map snd (add_slice l v acc)) = sumZ (map snd acc) + v.
Proof.
  induction acc as [|[l' v'] acc IH]; simpl; [lia|].
  case_decide; simpl; rewrite ?IH; lia.
Qed.

Lemma pie_calc_go_sum acc pts :
  sumZ (map snd (pie_calc_go acc pts)) =
  sumZ (map snd acc) + sumZ (map snd (valid_points pts)).
Proof.
  revert acc; induction pts as [|[l v] pts IH]; intros acc; simpl; [lia|].
  rewrite IH. destruct (Z.ltb v 0) eqn:Hv; bool_to_prop.
  - rewrite (proj2 (Z.leb_gt 0 v)) by lia. done.
  - rewrite (proj2 (Z.leb_le 0 v)) by lia. simpl. rewrite add_slice_sum. lia.
Qed.

Lemma zip_map_same {A B C} (f : A -> B) (g : A -> C) (l : list A) :
  zip (map f l) (map g l) = map (fun x => (f x, g x)) l.
Proof. induction l as [|x l IH]; simpl; congruence. Qed.

Lemma valid_points_all pts :
  (forall lv, In lv pts -> 0 <= snd lv) -> valid_points pts = pts.
Proof.
  unfold valid_points. induction pts as [|lv pts IH]; intros H; simpl; [done|].
  rewrite (proj2 (Z.leb_le _ _)) by (apply H; by left).
  f_equal. apply IH. intros; apply H; by right.
Qed.

(** The grouping of points drawn from a list of rows. *)
Lemma group_totals_map {B} (f : B -> label) (g : B -> Z) (l : list B) :
  group_totals (map (fun x => (f x, g x)) l) =
  map (fun k => (k, sumZ (map g (List.filter (fun x => bool_decide (f x = k)) l))))
      (unique (map f l)).
Proof.
  unfold group_totals. rewrite map_map. simpl. apply map_ext. intros k. f_equal.
  unfold label_total. induction l as [|x l IH]; simpl; [done|].
  case_bool_decide; simpl; rewrite IH; done.
Qed.

(** The slices of [px.pie] with a [values] column of nonnegative
    numbers: one per distinct name, holding the sum of its values. *)
Lemma pie_slices_px_values df names values title :
  (forall r, In r df -> 0 <= values r) ->
  pie_slices (px_pie df names (Some values) title) =
  map (fun k => (k, sumZ (map values (List.filter (fun r => bool_decide (names r = k)) df))))
      (unique (map names df)).
Proof.
  intros Hv. unfold pie_slices, pie_points, px_pie; simpl.
  rewrite zip_map_same, pie_calc_go_group_totals, valid_points_all.
  - apply group_totals_map.
  - intros lv (r & <- & Hr)%in_map_iff. simpl. auto.
Qed.

(** The slices of [px.pie] without [values]: one per distinct name,
    holding the number of its rows. *)
Lemma pie_slices_px_count df names title :
  pie_slices (px_pie df names None title) =
  map (fun k => (k, Z.of_nat (length (List.filter (fun r => bool_decide (names r = k)) df))))
      (unique (map names df)).
Proof.
  unfold pie_slices, pie_points, px_pie; simpl.
  rewrite map_map, pie_calc_go_group_totals, valid_points_all.
  - rewrite (group_totals_map names (fun _ => 1)). apply map_ext. intros k.
    by rewrite sumZ_ones.
  - intros lv (r & <- & Hr)%in_map_iff. simpl. lia.
Qed.

Lemma pie_slices_sum p :
  sumZ (map snd (pie_slices p)) = sumZ (map snd (valid_points (pie_points p))).
Proof. unfold pie_slices. rewrite pie_calc_go_sum. simpl. lia. Qed.

(** Every x value a trace of [px.scatter] draws is the x of a row of the
    frame it was given. *)
Lemma px_scatter_x df x y color title t v :
  In t (scatter_traces (px_scatter df x y color title)) -> In v (trace_x t) ->
  exists r, In r df /\ x r = v.
Proof.
  simpl. intros (c & <- & _)%in_map_iff. simpl.
  intros (r & <- & (Hr & _)%filter_In)%in_map_iff. eauto.
Qed.

(** Every row of the frame is drawn, as its (x, y) point, in the trace
    named after its colour. *)
Lemma px_scatter_draws df x y color title r :
  In r df ->
  exists t, In t (scatter_traces (px_scatter df x y color title)) /\
    trace_name t = color r /\ In (x r, y r) (zip (trace_x t) (trace_y t)).
Proof.
  intros Hr. eexists. split; [|split].
  - apply in_map_iff. exists (color r). split; [reflexivity|].
    apply list_elem_of_In. rewrite ?elem_of_unique, list_elem_of_In. by apply in_map.
  - reflexivity.
  - cbn. rewrite zip_map_same. apply (in_map (fun r => (x r, y r))).
    apply filter_In. split; [done|]. by apply bool_decide_eq_true.
Qed.

End Plotly.
