(* ===== verification/Callbacks.v ===== *)
(** * Callbacks: [get_pie_chart] and [get_scatter_plot]

    The two functions registered with [@app.callback] in
    src/spacex-dash-app.py (lines 55-66 and 76-91), over the loaded frame
    [spacex_df], which the Python code reads as a module global and which
    is an explicit argument here.  The dropdown value is [option string]
    ([None] when the dropdown is cleared); the slider value is a list of
    numbers or nulls, as Dash sends it. *)

From S2P Require Import Prelude Frame Plotly.
Import Frame Plotly.

Module Callbacks.

(** The text an f-string gives for the dropdown value: [None] prints as
    ['None']. *)
Definition py_str (v : option string) : string :=
  match v with Some s => s | None => "None" end.

(** [entered_site == 'ALL'] *)
Definition is_all (entered_site : option string) : bool :=
  bool_decide (entered_site = Some "ALL"%string).

(** Lines 55-66. *)
Definition get_pie_chart (spacex_df : frame) (entered_site : option string) : pie_fig :=
  if is_all entered_site then
    px_pie spacex_df (fun r => LStr (launch_site r)) (Some class)
      "Total Success Launches by Site"
  else
    let filtered_df := select spacex_df (series_eq (map launch_site spacex_df) entered_site) in
    px_pie filtered_df (fun r => LNum (class r)) None
      ("Success vs Failure for " ++ py_str entered_site).

(** [low, high = payload_range]: unpacking anything but two items raises
    [ValueError]. *)
Definition unpack2 {A} (l : list A) : result (A * A) :=
  match l with [a; b] => Ok (a, b) | _ => raise ValueError end%dash.

(** Lines 76-91. *)
Definition get_scatter_plot (spacex_df : frame) (entered_site : option string)
    (payload_range : list (option Z)) : result scatter_fig :=
  '(low, high) ← unpack2 payload_range;
  if is_all entered_site then
    let df := select spacex_df (series_and (series_ge (map payload_mass spacex_df) low)
                                           (series_le (map payload_mass spacex_df) high)) in
    mret (px_scatter df payload_mass class booster_version_category
            "Payload vs Outcome for All Sites")
  else
    let df := select spacex_df
                (series_and (series_and (series_eq (map launch_site spacex_df) entered_site)
                                        (series_ge (map payload_mass spacex_df) low))
                            (series_le (map payload_mass spacex_df) high)) in
    mret (px_scatter df payload_mass class booster_version_category
            ("Payload vs Outcome for " ++ py_str entered_site)).

(** ** Row predicates the masks compute *)

(** The site part of the masks: every row in 'ALL' mode, the rows of the
    entered site otherwise (none for a cleared dropdown). *)
Definition site_selected (entered_site : option string) (r : launch) : bool :=
  is_all entered_site ||
  match entered_site with Some s => bool_decide (launch_site r = s) | None => false end.

(** The payload part: a number between the bounds, inclusive. *)
Definition in_range (lo hi : Z) (r : launch) : bool :=
  match payload_mass r with Some m => Z.leb lo m && Z.leb m hi | None => false end.

Definition scatter_title (entered_site : option string) : string :=
  if is_all entered_site then "Payload vs Outcome for All Sites"
  else "Payload vs Outcome for " ++ py_str entered_site.

(** The outcome column holds 0 or 1 (spec, data model). *)
Definition class_ok (r : launch) : bool := bool_decide (class r = 0 \/ class r = 1).

(** Number of launches of site [s] with outcome [c]. *)
Definition site_outcome_count (df : frame) (s : string) (c : Z) : Z :=
  Z.of_nat (length (List.filter
    (fun r => bool_decide (launch_site r = s) && bool_decide (class r = c))%bool df)).

(** ** Lemmas *)

Lemma series_eq_map df v :
  series_eq (map launch_site df) v =
  map (fun r => match v with Some s => bool_decide (launch_site r = s) | None => false end) df.
Proof. unfold series_eq. by rewrite map_map. Qed.

#[export] Hint Rewrite series_eq_map : dash_rw.

(** The frame a successful call plots. *)
Lemma get_scatter_plot_rows df site lo hi :
  get_scatter_plot df site [Some lo; Some hi] =
  Ok (px_scatter (List.filter (fun r => site_selected site r && in_range lo hi r)%bool df)
        payload_mass class booster_version_category (scatter_title site)).
Proof.
  unfold get_scatter_plot, scatter_title. cbn -[select series_and series_eq px_scatter].
  unfold site_selected.
  destruct (is_all site); simpl; autorewrite with dash_rw; do 2 f_equal;
    apply filter_ext_in; intros r _; unfold in_range;
    destruct (payload_mass r); rewrite ?andb_false_r, ?andb_assoc; reflexivity.
Qed.

Lemma is_all_Some s : s <> "ALL"%string -> is_all (Some s) = false.
Proof. intros Hs. apply bool_decide_eq_false_2. congruence. Qed.

Lemma sumZ_class_count l :
  forallb class_ok l = true ->
  sumZ (map class l) = Z.of_nat (length (List.filter (fun r => bool_decide (class r = 1)) l)).
Proof.
  induction l as [|r l IH]; simpl; [done|]. intros [Hr Hl]%andb_true_iff.
  unfold class_ok in Hr. bool_to_prop.
  rewrite IH by done. case_bool_decide; simpl; lia.
Qed.

Lemma filter_label_str (df : frame) s :
  List.filter (fun r => bool_decide (LStr (launch_site r) = LStr s)) df =
  List.filter (fun r => bool_decide (launch_site r = s)) df.
Proof.
  apply filter_ext_in. intros r _. apply bool_decide_ext. split; [congruence|by intros ->].
Qed.

Lemma filter_label_num (df : frame) c :
  List.filter (fun r => bool_decide (LNum (class r) = LNum c)) df =
  List.filter (fun r => bool_decide (class r = c)) df.
Proof.
  apply filter_ext_in. intros r _. apply bool_decide_ext. split; [congruence|by intros ->].
Qed.

Lemma get_pie_chart_all_eq df :
  get_pie_chart df (Some "ALL"%string) =
  px_pie df (fun r => LStr (launch_site r)) (Some class) "Total Success Launches by Site".
Proof. reflexivity. Qed.

(** The site-filtered frame of a single-site pie. *)
Lemma get_pie_chart_site_eq df s :
  s <> "ALL"%string ->
  get_pie_chart df (Some s) =
  px_pie (List.filter (fun r => bool_decide (launch_site r = s)) df)
    (fun r => LNum (class r)) None ("Success vs Failure for " ++ s).
Proof.
  intros Hs. unfold get_pie_chart. rewrite is_all_Some by done.
  by autorewrite with dash_rw.
Qed.

(** Two items, one of them null: every comparison with the null bound is
    False, so nothing is selected and the scatter has no trace. *)
Lemma get_scatter_plot_null df site x y :
  x = None \/ y = None ->
  get_scatter_plot df site [x; y] = Ok (mk_scatter [] (scatter_title site)).
Proof.
  intros Hxy. destruct x as [lo|], y as [hi|]; [by destruct Hxy| | |];
    unfold get_scatter_plot, scatter_title; cbn -[select series_and series_eq px_scatter];
    destruct (is_all site); autorewrite with dash_rw;
    (rewrite (proj2 (filter_nil_iff _ df)); [reflexivity|]); intros r _;
    destruct (payload_mass r); simpl; rewrite ?andb_false_r; reflexivity.
Qed.

(** Two items never raise: the call returns a scatter. *)
Lemma get_scatter_plot_pair df site x y : exists sc, get_scatter_plot df site [x; y] = Ok sc.
Proof.
  destruct x as [lo|], y as [hi|];
    [rewrite get_scatter_plot_rows | rewrite get_scatter_plot_null by auto ..]; eauto.
Qed.

Lemma slices_site_labels df s :
  s <> "ALL"%string ->
  map fst (pie_slices (get_pie_chart df (Some s))) =
  unique (map (fun r => LNum (class r)) (List.filter (fun r => bool_decide (launch_site r = s)) df)).
Proof.
  intros Hs. rewrite get_pie_chart_site_eq, pie_slices_px_count by done.
  rewrite map_map. simpl. apply map_id.
Qed.

(** Three launches of the CSV, two of them from one site. *)
Definition three_launches : frame := [
  mk_launch "CCAFS LC-40" (Some 0) 0 "v1.0";
  mk_launch "CCAFS LC-40" (Some 525) 1 "v1.0";
  mk_launch "KSC LC-39A" (Some 5300) 1 "FT"]%string.

(** ** Properties of [get_pie_chart] *)

(** C4: in 'ALL' mode the pie has one slice per distinct launch site of
    the whole frame, in order of first appearance, and the slice of a site
    is its number of successful launches (the outcome column holding 0 or
    1). *)
Theorem get_pie_chart_all_slices df :
  forallb class_ok df = true ->
  pie_slices (get_pie_chart df (Some "ALL"%string)) =
  map (fun s => (LStr s, site_outcome_count df s 1)) (unique (map launch_site df)).
Proof.
  intros Hwf. rewrite get_pie_chart_all_eq, pie_slices_px_values.
  2:{ intros r Hr. eapply forallb_forall in Hwf; [|exact Hr].
      unfold class_ok in Hwf. bool_to_prop. lia. }
  rewrite <- (map_map launch_site LStr), (unique_map LStr), map_map.
  apply map_ext_in. intros s _.
  rewrite filter_label_str, sumZ_class_count
    by (apply forallb_forall; intros r (Hr & _)%filter_In;
        by eapply forallb_forall in Hwf).
  unfold site_outcome_count. by rewrite filter_filter_andb.
Qed.

Lemma get_pie_chart_all_slices_witness :
  forallb class_ok three_launches = true /\
  pie_slices (get_pie_chart three_launches (Some "ALL"%string)) =
  map (fun s => (LStr s, site_outcome_count three_launches s 1))
      (unique (map launch_site three_launches)).
Proof.
  split; [reflexivity|].
  apply (get_pie_chart_all_slices three_launches). reflexivity.
Defined.

(** C5: for a single site the pie has one slice per distinct outcome of
    that site's launches, holding the number of launches with that
    outcome. *)
Theorem get_pie_chart_site_slices df s :
  s <> "ALL"%string ->
  pie_slices (get_pie_chart df (Some s)) =
  map (fun c => (LNum c, site_outcome_count df s c))
      (unique (map class (List.filter (fun r => bool_decide (launch_site r = s)) df))).
Proof.
  intros Hs. rewrite get_pie_chart_site_eq, pie_slices_px_count by done.
  rewrite <- (map_map class LNum), (unique_map LNum), map_map.
  apply map_ext_in. intros c _. rewrite filter_label_num, filter_filter_andb.
  done.
Qed.

Lemma get_pie_chart_site_slices_witness :
  "CCAFS LC-40"%string <> "ALL"%string /\
  pie_slices (get_pie_chart three_launches (Some "CCAFS LC-40"%string)) =
  map (fun c => (LNum c, site_outcome_count three_launches "CCAFS LC-40" c))
      (unique (map class (List.filter
         (fun r => bool_decide (launch_site r = "CCAFS LC-40"%string)) three_launches))).
Proof.
  split; [discriminate|].
  apply (get_pie_chart_site_slices three_launches "CCAFS LC-40"). discriminate.
Defined.

(** C9: with outcomes 0 and 1, a single-site pie has at most two slices,
    and its slices add up to the number of launches of the site. *)
Theorem get_pie_chart_site_two_slices df s :
  s <> "ALL"%string ->
  forallb class_ok df = true ->
  Nat.le (length (pie_slices (get_pie_chart df (Some s)))) 2 /\
  sumZ (map snd (pie_slices (get_pie_chart df (Some s)))) =
  Z.of_nat (length (List.filter (fun r => bool_decide (launch_site r = s)) df)).
Proof.
  intros Hs Hwf. split.
  - rewrite <- (length_map fst), slices_site_labels by done.
    change 2%nat with (length [LNum 0; LNum 1]).
    apply submseteq_length, NoDup_submseteq; [apply NoDup_unique|].
    intros c Hc. rewrite elem_of_unique in Hc.
    apply list_elem_of_In, in_map_iff in Hc as (r & <- & (Hr & _)%filter_In).
    eapply forallb_forall in Hwf; [|exact Hr]. unfold class_ok in Hwf.
    bool_to_prop. apply list_elem_of_In. simpl.
    destruct Hwf as [-> | ->]; auto.
  - rewrite get_pie_chart_site_eq, pie_slices_sum by done.
    unfold pie_points, px_pie. simpl. rewrite map_map, valid_points_all.
    + by rewrite map_map, sumZ_ones.
    + intros lv (r & <- & _)%in_map_iff. simpl. lia.
Qed.

Lemma get_pie_chart_site_two_slices_witness :
  "CCAFS LC-40"%string <> "ALL"%string /\ forallb class_ok three_launches = true /\
  Nat.le (length (pie_slices (get_pie_chart three_launches (Some "CCAFS LC-40"%string)))) 2.
Proof.
  split; [discriminate|split; [reflexivity|]].
  apply (get_pie_chart_site_two_slices three_launches "CCAFS LC-40"); [discriminate|reflexivity].
Defined.

(** ** Properties of [get_scatter_plot] *)

(** C2: the result of [get_scatter_plot] on every slider value: the
    scatter of the selected rows whose payload lies in [[low, high]] when
    the value is two numbers; a scatter with no trace when it is two items
    one of which is null (every comparison with the null bound is False);
    [ValueError] when it does not hold exactly two items. *)
Theorem get_scatter_plot_result df site range :
  get_scatter_plot df site range =
  match range with
  | [Some lo; Some hi] =>
      Ok (px_scatter (List.filter (fun r => site_selected site r && in_range lo hi r)%bool df)
            payload_mass class booster_version_category (scatter_title site))
  | [_; _] => Ok (mk_scatter [] (scatter_title site))
  | _ => raise ValueError
  end%dash.
Proof.
  destruct range as [|[lo|] [|[hi|] [|x range]]];
    try apply get_scatter_plot_rows; try (apply get_scatter_plot_null; auto);
    unfold get_scatter_plot; simpl; try destruct (is_all site); reflexivity.
Qed.

(** C12: a cleared dropdown ([None]) selects no launch: the pie has no
    slice and is titled 'Success vs Failure for None', and the scatter has
    no trace. *)
Theorem cleared_dropdown_empty df range :
  pie_slices (get_pie_chart df None) = [] /\
  pie_title (get_pie_chart df None) = "Success vs Failure for None"%string /\
  forall lo hi, range = [Some lo; Some hi] ->
    get_scatter_plot df None range = Ok (mk_scatter [] "Payload vs Outcome for None").
Proof.
  unfold get_pie_chart. simpl. autorewrite with dash_rw.
  rewrite (proj2 (filter_nil_iff _ df)) by done. split; [done|split; [done|]].
  intros lo hi ->. rewrite get_scatter_plot_rows.
  rewrite (proj2 (filter_nil_iff _ df)) by done. reflexivity.
Qed.

(** C15: an empty selection is not an error (spec sections 4.1 and 4.2):
    for a site no launch has, the pie has no slice and the scatter, on
    every numeric range, no trace; for an inverted range ([high < low])
    the scatter has no trace, whatever the site. *)
Theorem empty_selection_no_error df s site lo hi :
  s <> "ALL"%string -> s ∉ map launch_site df ->
  pie_slices (get_pie_chart df (Some s)) = [] /\
  get_scatter_plot df (Some s) [Some lo; Some hi] =
    Ok (mk_scatter [] ("Payload vs Outcome for " ++ s)) /\
  (hi < lo -> get_scatter_plot df site [Some lo; Some hi] =
                Ok (mk_scatter [] (scatter_title site))).
Proof.
  intros Hs Hnot.
  assert (Hno : forall r, In r df -> launch_site r <> s).
  { intros r Hr <-. apply Hnot, list_elem_of_In. by apply in_map. }
  split; [|split].
  - rewrite get_pie_chart_site_eq by done.
    rewrite (proj2 (filter_nil_iff _ df)); [done|].
    intros r Hr. apply bool_decide_eq_false. by apply Hno.
  - rewrite get_scatter_plot_rows, (proj2 (filter_nil_iff _ df)).
    + unfold scatter_title. by rewrite is_all_Some.
    + intros r Hr. unfold site_selected. rewrite is_all_Some by done. simpl.
      rewrite bool_decide_eq_false_2 by (by apply Hno). done.
  - intros Hlt. rewrite get_scatter_plot_rows, (proj2 (filter_nil_iff _ df)); [done|].
    intros r _. unfold in_range. destruct (payload_mass r); [|by rewrite andb_false_r].
    destruct (Z.leb_spec lo z), (Z.leb_spec z hi); [lia|..]; by rewrite ?andb_false_r.
Qed.

Lemma empty_selection_no_error_witness :
  ("VAFB SLC-4E"%string <> "ALL"%string) /\ ("VAFB SLC-4E"%string ∉ map launch_site three_launches) /\
  pie_slices (get_pie_chart three_launches (Some "VAFB SLC-4E"%string)) = [].
Proof.
  assert (H1 : "VAFB SLC-4E"%string <> "ALL"%string) by discriminate.
  assert (H2 : "VAFB SLC-4E"%string ∉ map launch_site three_launches).
  { apply (bool_decide_unpack _). vm_compute. exact I. }
  split; [exact H1|split; [exact H2|]].
  exact (proj1 (empty_selection_no_error three_launches _ None 0 0 H1 H2)).
Defined.

(** C16: the payload bounds are inclusive (spec section 8): every launch
    of the selected site(s) whose payload lies in [[low, high]], the bounds
    themselves included, is drawn as its point (payload, class) in the
    trace of its booster version category. *)
Theorem scatter_draws_in_range df site lo hi r m :
  In r df -> site_selected site r = true -> payload_mass r = Some m -> lo <= m <= hi ->
  exists sc t, get_scatter_plot df site [Some lo; Some hi] = Ok sc /\
    In t (scatter_traces sc) /\ trace_name t = booster_version_category r /\
    In (Some m, class r) (zip (trace_x t) (trace_y t)).
Proof.
  intros Hr Hsel Hm Hlh. rewrite get_scatter_plot_rows.
  destruct (px_scatter_draws (List.filter (fun r => site_selected site r && in_range lo hi r)%bool df)
              payload_mass class booster_version_category (scatter_title site) r)
    as (t & Ht & Hname & Hpt).
  { apply filter_In. split; [done|]. rewrite Hsel. unfold in_range. rewrite Hm. simpl.
    apply andb_true_intro. split; apply Z.leb_le; lia. }
  eexists _, t. rewrite <- Hm. eauto.
Qed.

Lemma scatter_draws_in_range_witness :
  exists sc t, get_scatter_plot three_launches (Some "CCAFS LC-40"%string) [Some 525; Some 5300] = Ok sc /\
    In t (scatter_traces sc) /\ trace_name t = "v1.0"%string /\
    In (Some 525, 1) (zip (trace_x t) (trace_y t)).
Proof.
  apply (scatter_draws_in_range three_launches _ 525 5300
           (mk_launch "CCAFS LC-40" (Some 525) 1 "v1.0")%string 525);
    [simpl; tauto|reflexivity|reflexivity|lia].
Defined.

End Callbacks.
