(* ===== verification/FilterSpec.v ===== *)
(** * FilterSpec: the spec's Filter Engine, and the masks that implement it

    The spec (section 4.1) describes a component
    [filter(records, site_selector, payload_range)] that
    src/spacex-dash-app.py has no function for: the masks of
    [get_scatter_plot] compute it inline (lines 79-80 and 85-87).  This
    file writes the spec's filter as [spec_filter], proves that the frame
    [get_scatter_plot] plots is that filter for every selector except a
    site literally named 'ALL', and that for such a site it is not. *)

From S2P Require Import Prelude Frame Plotly Callbacks.
Import Frame Plotly Callbacks.

Module FilterSpec.

(** The spec's selector: the sentinel for all sites, or one site. *)
Inductive selector := AllSites | OneSite (s : string).

#[export] Instance selector_eq_dec : EqDecision selector.
Proof. solve_decision. Defined.

(** The dropdown value a selector is sent as: the option values of
    line 24 ('ALL') and line 25 (the site names). *)
Definition selector_value (sel : selector) : option string :=
  match sel with AllSites => Some "ALL"%string | OneSite s => Some s end.

Definition site_matches (sel : selector) (r : launch) : Prop :=
  match sel with AllSites => True | OneSite s => launch_site r = s end.

(** The payload is a number within the range, bounds included. *)
Definition mass_in (lo hi : Z) (r : launch) : Prop :=
  exists m, payload_mass r = Some m /\ lo <= m <= hi.

Definition spec_match (sel : selector) (lo hi : Z) (r : launch) : Prop :=
  site_matches sel r /\ mass_in lo hi r.

#[export] Instance site_matches_dec sel r : Decision (site_matches sel r).
Proof. destruct sel; simpl; apply _. Defined.

#[export] Instance mass_in_dec lo hi r : Decision (mass_in lo hi r).
Proof.
  unfold mass_in. destruct (payload_mass r) as [m|].
  - destruct (decide (lo <= m <= hi)); [left; eauto|].
    right. intros (m' & [= <-] & ?). done.
  - right. intros (? & [=] & _).
Defined.

(** The reference filter of section 4.1: the records of the selected
    site(s) whose payload lies in the range, in their order. *)
Definition spec_filter (df : frame) (sel : selector) (lo hi : Z) : frame :=
  List.filter (fun r => bool_decide (spec_match sel lo hi r)) df.

Lemma elem_of_spec_filter df sel lo hi r :
  r ∈ spec_filter df sel lo hi <-> r ∈ df /\ spec_match sel lo hi r.
Proof.
  unfold spec_filter. rewrite !list_elem_of_In, filter_In, bool_decide_eq_true. done.
Qed.

(** ** The masks of [get_scatter_plot] *)

Lemma in_range_mass_in lo hi r : in_range lo hi r = bool_decide (mass_in lo hi r).
Proof.
  unfold in_range. case_bool_decide as H.
  - destruct H as (m & -> & Hm). apply andb_true_iff. split; apply Z.leb_le; lia.
  - destruct (payload_mass r) as [m|] eqn:Hp; [|done].
    apply not_true_iff_false. intros Hb. bool_to_prop.
    apply H. exists m. split; [done|lia].
Qed.

Lemma site_selected_matches sel r :
  sel <> OneSite "ALL"%string ->
  site_selected (selector_value sel) r = bool_decide (site_matches sel r).
Proof.
  intros Hsel. destruct sel as [|s]; [done|]. unfold site_selected, selector_value.
  rewrite is_all_Some by congruence. reflexivity.
Qed.

(** The scenario of the spec (section 8). *)
Definition scenario : frame := [
  mk_launch "SiteA" (Some 500) 1 "v1.0";
  mk_launch "SiteA" (Some 1500) 0 "v1.0";
  mk_launch "SiteB" (Some 3000) 1 "v1.1";
  mk_launch "SiteB" (Some 9000) 0 "v1.1"]%string.

(** ** Theorems *)

(** C3: for every selector except a site named 'ALL', and every numeric
    range, [get_scatter_plot] plots exactly the rows of the reference
    filter: the masks of lines 79-80 and 85-87 implement the Filter
    Engine. *)
Theorem get_scatter_plot_refines_filter df sel lo hi :
  sel <> OneSite "ALL"%string ->
  get_scatter_plot df (selector_value sel) [Some lo; Some hi] =
  Ok (px_scatter (spec_filter df sel lo hi) payload_mass class booster_version_category
        (scatter_title (selector_value sel))).
Proof.
  intros Hsel. rewrite get_scatter_plot_rows. do 2 f_equal.
  apply filter_ext_in. intros r _.
  rewrite site_selected_matches, in_range_mass_in by done.
  unfold spec_match. by rewrite bool_decide_and.
Qed.

Lemma get_scatter_plot_refines_filter_witness :
  OneSite "SiteA"%string <> OneSite "ALL"%string /\
  get_scatter_plot scenario (selector_value (OneSite "SiteA")) [Some 0; Some 1000] =
  Ok (px_scatter (spec_filter scenario (OneSite "SiteA") 0 1000) payload_mass class
        booster_version_category (scatter_title (selector_value (OneSite "SiteA"%string)))).
Proof.
  split; [discriminate|].
  apply get_scatter_plot_refines_filter. discriminate.
Defined.

(** C14: a launch site named 'ALL' cannot be shown alone: its dropdown
    option carries the value 'ALL' (line 25), which the callbacks read as
    the sentinel, so the scatter plots the launches of every site in the
    range, titled for all sites; as soon as another site has a launch in
    the range, that launch is drawn, where the spec's filter for the site
    'ALL' excludes it. *)
Theorem site_named_ALL_divergence df r lo hi :
  In r df -> launch_site r <> "ALL"%string -> in_range lo hi r = true ->
  get_scatter_plot df (selector_value (OneSite "ALL")) [Some lo; Some hi] =
    Ok (px_scatter (List.filter (in_range lo hi) df) payload_mass class
          booster_version_category "Payload vs Outcome for All Sites") /\
  In r (List.filter (in_range lo hi) df) /\
  r ∉ spec_filter df (OneSite "ALL") lo hi.
Proof.
  intros Hr Hsite Hin. split; [|split].
  - rewrite get_scatter_plot_rows. reflexivity.
  - by apply filter_In.
  - rewrite elem_of_spec_filter. by intros [_ [Hs _]].
Qed.

Lemma site_named_ALL_divergence_witness :
  let df := [mk_launch "ALL" (Some 500) 1 "v1.0"; mk_launch "KSC" (Some 600) 0 "B5"]%string in
  In (mk_launch "KSC" (Some 600) 0 "B5")%string df /\
  (mk_launch "KSC" (Some 600) 0 "B5")%string ∉ spec_filter df (OneSite "ALL") 0 10000.
Proof.
  intros df. split; [simpl; tauto|].
  exact (proj2 (proj2 (site_named_ALL_divergence df _ 0 10000
                         (or_intror (or_introl eq_refl)) ltac:(discriminate) eq_refl))).
Defined.

End FilterSpec.
