(* ===== verification/Layout.v ===== *)
(** * Layout: the page the app serves, and the inputs a user can give

    [app.layout] of src/spacex-dash-app.py (lines 17-48) as a record: the
    dropdown options (lines 24-25), its initial value (line 26), the range
    slider (lines 38-43) whose initial value is the pair of start-up globals
    [min_payload] and [max_payload] (lines 10-11).  The values a user can
    send back through the two controls are [dropdown_choice] (an option
    value, or [None] once the clearable dropdown is cleared) and
    [slider_choice] (two handles on the slider's grid). *)

From S2P Require Import Prelude Frame.
Import Frame.

Module Layout.

Record dropdown_option := mk_option { opt_label : string; opt_value : string }.

Record range_slider := mk_slider {
  slider_min : Z;
  slider_max : Z;
  slider_step : Z;
  slider_marks : list (Z * string);
  slider_value : list (option Z)
}.

Record layout := mk_layout {
  heading : string;
  site_options : list dropdown_option;
  site_initial : option string;
  payload_slider : range_slider
}.

(** Lines 10-11. *)
Definition min_payload (spacex_df : frame) : option Z := series_min (map payload_mass spacex_df).
Definition max_payload (spacex_df : frame) : option Z := series_max (map payload_mass spacex_df).

(** Lines 24-25. *)
Definition dropdown_options (spacex_df : frame) : list dropdown_option :=
  mk_option "All Sites" "ALL" ::
  map (fun site => mk_option site site) (unique (map launch_site spacex_df)).

(** Line 41. *)
Definition payload_marks : list (Z * string) :=
  [(0, "0"); (2500, "2500"); (5000, "5000"); (7500, "7500"); (10000, "10000")]%string.

(** Lines 38-43. *)
Definition slider (spacex_df : frame) : range_slider :=
  mk_slider 0 10000 1000 payload_marks [min_payload spacex_df; max_payload spacex_df].

(** Lines 17-48. *)
Definition app_layout (spacex_df : frame) : layout :=
  mk_layout "SpaceX Launch Records Dashboard" (dropdown_options spacex_df)
    (Some "ALL"%string) (slider spacex_df).

(** ** Values a user can send *)

(** A dropdown value: one of the option values, or [None] after the
    user clears the (clearable by default) dropdown. *)
Definition dropdown_choice (lay : layout) (v : option string) : bool :=
  match v with
  | None => true
  | Some s => bool_decide (s ∈ map opt_value (site_options lay))
  end.

(** A position of a slider handle within the bounds: a step of the grid
    ([step=1000] from [min=0]) or one of the [marks], which the slider
    also snaps to. *)
Definition on_grid (s : range_slider) (x : Z) : bool :=
  Z.leb (slider_min s) x && Z.leb x (slider_max s) &&
  (Z.eqb ((x - slider_min s) mod slider_step s) 0 ||
   bool_decide (x ∈ map fst (slider_marks s))).

(** A slider value a user can set: two handle positions. *)
Definition slider_choice (s : range_slider) (v : list (option Z)) : bool :=
  match v with
  | [Some a; Some b] => on_grid s a && on_grid s b
  | _ => false
  end.

(** ** Lemmas *)

Lemma dropdown_values df :
  map opt_value (dropdown_options df) = "ALL"%string :: unique (map launch_site df).
Proof. unfold dropdown_options. simpl. by rewrite map_map, map_id. Qed.

Lemma slider_choice_shape s v :
  slider_choice s v = true -> exists a b, v = [Some a; Some b] /\
    slider_min s <= a <= slider_max s /\ slider_min s <= b <= slider_max s.
Proof.
  destruct v as [|[a|] [|[b|] [|]]]; simpl; try discriminate.
  unfold on_grid. intros H. bool_to_prop. exists a, b. split; [done|lia].
Qed.

Lemma in_payloads r m df :
  In r df -> payload_mass r = Some m -> In (Some m) (map payload_mass df).
Proof. intros Hr Hm. rewrite <- Hm. by apply in_map. Qed.

Lemma payload_attained df m :
  In (Some m) (map payload_mass df) -> exists r, In r df /\ payload_mass r = Some m.
Proof. intros (r & Hm & Hr)%in_map_iff. eauto. Qed.

Lemma min_max_payload_spec df :
  (forall lo hi, min_payload df = Some lo -> max_payload df = Some hi ->
     (forall r m, In r df -> payload_mass r = Some m -> lo <= m <= hi) /\
     (exists r, In r df /\ payload_mass r = Some lo) /\
     (exists r, In r df /\ payload_mass r = Some hi)) /\
  (min_payload df = None <-> forall r, In r df -> payload_mass r = None) /\
  (max_payload df = None <-> min_payload df = None).
Proof.
  unfold min_payload, max_payload. split; [|split].
  - intros lo hi Hlo Hhi. split; [|split].
    + intros r m Hr Hm. split.
      * eapply series_min_le; [exact Hlo|]. by eapply in_payloads.
      * eapply series_max_ge; [exact Hhi|]. by eapply in_payloads.
    + by apply payload_attained, series_min_attained.
    + by apply payload_attained, series_max_attained.
  - rewrite series_min_None. split.
    + intros H r Hr. apply H. by apply in_map.
    + intros H x (r & <- & Hr)%in_map_iff. auto.
  - by rewrite series_min_None, series_max_None.
Qed.

(** ** Theorems *)

(** C10: [min_payload] and [max_payload] bound every known payload of the
    frame and are payloads of some launch; they are NaN ([None]) exactly
    when no payload of the frame is known, and then both are. *)
Theorem payload_bounds df :
  (forall lo hi, min_payload df = Some lo -> max_payload df = Some hi ->
     (forall r m, In r df -> payload_mass r = Some m -> lo <= m <= hi) /\
     (exists r, In r df /\ payload_mass r = Some lo) /\
     (exists r, In r df /\ payload_mass r = Some hi)) /\
  (min_payload df = None <-> forall r, In r df -> payload_mass r = None) /\
  (max_payload df = None <-> min_payload df = None).
Proof. apply min_max_payload_spec. Qed.

(** C13: the dropdown offers each value once exactly when no launch site
    is itself named 'ALL'; otherwise two options carry the value 'ALL'. *)
Theorem dropdown_values_NoDup df :
  NoDup (map opt_value (dropdown_options df)) <-> "ALL"%string ∉ map launch_site df.
Proof.
  rewrite dropdown_values, NoDup_cons, elem_of_unique.
  split; [tauto|]. intros H. split; [done|apply NoDup_unique].
Qed.

(** C11: the slider's initial value lies inside its own bounds
    [[0, 10000]] exactly when every known payload of the frame lies in
    [[0, 10000]]; a heavier (or negative) payload puts a handle outside
    the track. *)
Theorem initial_slider_in_bounds df :
  (forall v, In (Some v) (slider_value (slider df)) ->
     slider_min (slider df) <= v <= slider_max (slider df)) <->
  (forall r m, In r df -> payload_mass r = Some m -> 0 <= m <= 10000).
Proof.
  cbn [slider slider_value slider_min slider_max].
  destruct (min_max_payload_spec df) as (Hb & Hnone & Hmax). split.
  - intros H r m Hr Hm.
    destruct (min_payload df) as [lo|] eqn:Hlo.
    2:{ rewrite (proj1 Hnone eq_refl r Hr) in Hm. discriminate. }
    destruct (max_payload df) as [hi|] eqn:Hhi; [|by pose proof (proj1 Hmax eq_refl)].
    destruct (Hb lo hi eq_refl eq_refl) as (Hin & _).
    specialize (Hin r m Hr Hm). pose proof (H lo (or_introl eq_refl)).
    pose proof (H hi (or_intror (or_introl eq_refl))). lia.
  - intros H v [Hv|[Hv|[]]]; unfold min_payload, max_payload in Hv;
      [apply series_min_attained in Hv | apply series_max_attained in Hv];
      destruct (payload_attained df v Hv) as (r & Hr & Hm); exact (H r v Hr Hm).
Qed.

(** Two launches of the CSV, 500 kg and 9600 kg. *)
Definition two_launches : frame :=
  [mk_launch "KSC LC-39A" (Some 500) 1 "B5"; mk_launch "VAFB SLC-4E" (Some 9600) 0 "FT"]%string.

End Layout.
