(* ===== verification/Reactive.v ===== *)
(** * Reactive: the callback dispatch of Dash

    The reactive binding layer the app relies on (spec, sections 2 and 9),
    generic in the callbacks an app registers.  Dash keeps the current
    value of every input property and the figure shown in every output.
    At page load it runs every callback once on the initial values; when
    the user changes an input, it runs each callback listing that input
    among its [Input]s on the new values.  A callback that returns writes
    its output; one that raises leaves the output as it was.

    The section's hypothesis [callback_local] is what the app must provide:
    a callback reads only the inputs it registered.  From it, the shown
    figures agree with the callbacks on the current inputs in every
    reachable state ([shown_consistent]). *)

From S2P Require Import Prelude.

Module Reactive.

Section Dispatch.
Context {InputId OutputId Inputs Event Fig : Type} `{EqDecision InputId}.

(** What an app registers: the [Input]s of the callback of each output,
    and the callback. *)
Variable deps : OutputId -> list InputId.
Variable callback : OutputId -> Inputs -> result Fig.

(** What a user event does: the input it changes, and the new values. *)
Variable apply_event : Event -> Inputs -> Inputs.
Variable event_target : Event -> InputId.

Record state := mk_state {
  inputs : Inputs;
  shown : OutputId -> option Fig
}.

(** Running the callback of [o]: a returned figure replaces the shown one,
    an exception keeps it. *)
Definition fire (o : OutputId) (i : Inputs) (old : option Fig) : option Fig :=
  match callback o i with Ok f => Some f | Err _ => old end.

(** Page load: every callback runs on the initial values. *)
Definition initial (i0 : Inputs) : state :=
  mk_state i0 (fun o => fire o i0 None).

(** A user event. *)
Definition step (st : state) (e : Event) : state :=
  let i := apply_event e (inputs st) in
  mk_state i (fun o =>
    if decide (event_target e ∈ deps o) then fire o i (shown st o) else shown st o).

(** The values a user can send, and the states a session reaches. *)
Variable valid_event : Inputs -> Event -> bool.
Variable i0 : Inputs.

Inductive reachable : state -> Prop :=
| reachable_init : reachable (initial i0)
| reachable_step st e :
    reachable st -> valid_event (inputs st) e = true -> reachable (step st e).

Lemma fire_Ok o i old f : callback o i = Ok f -> fire o i old = Some f.
Proof. unfold fire. by intros ->. Qed.

(** An output whose callback raises on every input is never filled. *)
Lemma shown_never_filled o :
  (forall i, is_ok (callback o i) = false) ->
  forall st, reachable st -> shown st o = None.
Proof.
  intros Hraise st Hr. induction Hr as [|st e Hr IH Hv]; simpl.
  - specialize (Hraise i0). unfold fire. by destruct (callback o i0).
  - case_decide; [|done]. specialize (Hraise (apply_event e (inputs st))).
    unfold fire. by destruct (callback o _).
Qed.

Hypothesis callback_local :
  forall o e i, event_target e ∉ deps o -> callback o (apply_event e i) = callback o i.

(** The shown figure of an output is its callback's result on the current
    inputs, whenever that callback returns. *)
Lemma shown_consistent st :
  reachable st -> forall o f, callback o (inputs st) = Ok f -> shown st o = Some f.
Proof.
  induction 1 as [|st e Hr IH Hv]; intros o f Hf; simpl in *.
  - by apply fire_Ok.
  - case_decide as Hin.
    + by apply fire_Ok.
    + apply IH. rewrite <- (callback_local o e) by done. exact Hf.
Qed.

End Dispatch.

Arguments mk_state {_ _ _}.
Arguments inputs {_ _ _}.
Arguments shown {_ _ _}.

End Reactive.
