(* ===== verification/App.v ===== *)
(** * App: the dashboard as Dash runs it

    The two [@app.callback] registrations of src/spacex-dash-app.py
    (lines 51-54 and 69-75) as an instance of [Reactive]: the inputs are
    the [value] of [site-dropdown] and of [payload-slider], the outputs the
    [figure] of [success-pie-chart] and of [success-payload-scatter-chart].
    The initial inputs come from [app.layout] (lines 26 and 42), and the
    events a user can cause are [Layout.dropdown_choice] and
    [Layout.slider_choice].  The theorems hold in every state a session
    reaches. *)

From S2P Require Import Prelude Frame Plotly Callbacks Layout Reactive.
Import Frame Plotly Callbacks Layout Reactive.

Module App.

Inductive input_id := SiteDropdown | PayloadSlider.
Inductive output_id := SuccessPieChart | PayloadScatterChart.

#[export] Instance input_id_eq_dec : EqDecision input_id.
Proof. solve_decision. Defined.

#[export] Instance output_id_eq_dec : EqDecision output_id.
Proof. solve_decision. Defined.

(** The [value] properties of the two controls. *)
Record ui_inputs := mk_inputs {
  site_value : option string;
  range_value : list (option Z)
}.

Inductive event := SelectSite (v : option string) | MoveSlider (v : list (option Z)).

Definition apply_event (e : event) (i : ui_inputs) : ui_inputs :=
  match e with
  | SelectSite v => mk_inputs v (range_value i)
  | MoveSlider v => mk_inputs (site_value i) v
  end.

Definition event_target (e : event) : input_id :=
  match e with SelectSite _ => SiteDropdown | MoveSlider _ => PayloadSlider end.

(** The [Input] lists of the two decorators. *)
Definition deps (o : output_id) : list input_id :=
  match o with
  | SuccessPieChart => [SiteDropdown]
  | PayloadScatterChart => [SiteDropdown; PayloadSlider]
  end.

(** The function each decorator registers. *)
Definition callback (spacex_df : frame) (o : output_id) (i : ui_inputs) : result figure :=
  match o with
  | SuccessPieChart => mret (FigPie (get_pie_chart spacex_df (site_value i)))
  | PayloadScatterChart =>
      fig ← get_scatter_plot spacex_df (site_value i) (range_value i);
      mret (FigScatter fig)
  end.

(** The [value]s the layout starts with. *)
Definition initial_inputs (spacex_df : frame) : ui_inputs :=
  mk_inputs (site_initial (app_layout spacex_df))
    (slider_value (payload_slider (app_layout spacex_df))).

Definition valid_event (spacex_df : frame) (i : ui_inputs) (e : event) : bool :=
  match e with
  | SelectSite v => dropdown_choice (app_layout spacex_df) v
  | MoveSlider v => slider_choice (payload_slider (app_layout spacex_df)) v
  end.

Abbreviation app_state := (@Reactive.state output_id ui_inputs figure).

Definition app_reachable (spacex_df : frame) : app_state -> Prop :=
  Reactive.reachable deps (callback spacex_df) apply_event event_target
    (valid_event spacex_df) (initial_inputs spacex_df).

(** ** Lemmas *)

(** Each callback reads only the inputs of its decorator. *)
Lemma callback_local df o e i :
  event_target e ∉ deps o -> callback df o (apply_event e i) = callback df o i.
Proof.
  intros H. destruct o, e; simpl in *; try done;
    exfalso; apply H; rewrite ?elem_of_cons; auto.
Qed.

Lemma app_shown_consistent df st :
  app_reachable df st ->
  forall o f, callback df o (inputs st) = Ok f -> shown st o = Some f.
Proof. apply shown_consistent. apply callback_local. Qed.

(** The slider holds its initial value or a value the user set. *)
Definition range_origin (df : frame) (r : list (option Z)) : Prop :=
  r = [min_payload df; max_payload df] \/ slider_choice (slider df) r = true.

Lemma range_origin_cases df r :
  range_origin df r -> r = [None; None] \/ exists lo hi, r = [Some lo; Some hi].
Proof.
  intros [->|(a & b & -> & _)%slider_choice_shape]; [|eauto].
  destruct (min_max_payload_spec df) as (_ & _ & Hmax).
  destruct (min_payload df) as [lo|]; destruct (max_payload df) as [hi|]; [eauto| | |auto].
  - pose proof (proj1 Hmax eq_refl). discriminate.
  - pose proof (proj2 Hmax eq_refl). discriminate.
Qed.

(** The slider holds its initial value or a value the user set, in every
    reachable state. *)
Lemma range_origin_holds df st :
  app_reachable df st -> range_origin df (range_value (inputs st)).
Proof.
  induction 1 as [|st [v|v] Hr IH Hv]; cbn [initial step inputs apply_event range_value].
  - by left.
  - done.
  - by right.
Qed.

Lemma initial_reachable df :
  app_reachable df (initial (callback df) (initial_inputs df)).
Proof. constructor. Qed.

(** ** Theorems *)

(** C1: in every state a session reaches, the pie graph shows
    [get_pie_chart] of the current dropdown value, and the scatter graph
    shows [get_scatter_plot] of the current dropdown and slider values
    whenever that call returns. *)
Theorem dashboard_consistent df st :
  app_reachable df st ->
  shown st SuccessPieChart = Some (FigPie (get_pie_chart df (site_value (inputs st)))) /\
  (forall sc, get_scatter_plot df (site_value (inputs st)) (range_value (inputs st)) = Ok sc ->
     shown st PayloadScatterChart = Some (FigScatter sc)).
Proof.
  intros Hr. split.
  - by apply (app_shown_consistent df st Hr).
  - intros sc Hsc. apply (app_shown_consistent df st Hr). simpl. by rewrite Hsc.
Qed.

Lemma dashboard_consistent_witness :
  app_reachable two_launches (initial (callback two_launches) (initial_inputs two_launches)) /\
  shown (initial (callback two_launches) (initial_inputs two_launches)) SuccessPieChart =
    Some (FigPie (get_pie_chart two_launches (Some "ALL"%string))).
Proof.
  split; [apply initial_reachable|].
  apply (dashboard_consistent two_launches _ (initial_reachable two_launches)).
Defined.

(** C8: the pie does not depend on the payload slider: two reachable
    states with the same dropdown value show the same pie, whatever their
    slider values, although the spec has both charts filtered by the
    range. *)
Theorem pie_independent_of_slider df st1 st2 :
  app_reachable df st1 -> app_reachable df st2 ->
  site_value (inputs st1) = site_value (inputs st2) ->
  shown st1 SuccessPieChart = shown st2 SuccessPieChart.
Proof.
  intros H1 H2 Hsite.
  rewrite (app_shown_consistent df st1 H1 SuccessPieChart _ eq_refl).
  rewrite (app_shown_consistent df st2 H2 SuccessPieChart _ eq_refl).
  simpl. by rewrite Hsite.
Qed.

(** A session of one slider move to [[0, 5000]]. *)
Definition moved_slider : app_state :=
  step deps (callback two_launches) apply_event event_target
    (initial (callback two_launches) (initial_inputs two_launches))
    (MoveSlider [Some 0; Some 5000]).

Lemma pie_independent_of_slider_witness :
  app_reachable two_launches (initial (callback two_launches) (initial_inputs two_launches)) /\
  app_reachable two_launches moved_slider /\
  shown (initial (callback two_launches) (initial_inputs two_launches)) SuccessPieChart =
    shown moved_slider SuccessPieChart.
Proof.
  assert (H2 : app_reachable two_launches moved_slider).
  { apply reachable_step; [apply initial_reachable|reflexivity]. }
  split; [apply initial_reachable|split; [exact H2|]].
  apply (pie_independent_of_slider two_launches _ _ (initial_reachable two_launches) H2).
  reflexivity.
Defined.

(** C6: in every reachable state the slider value has two items, so the
    scatter callback never raises and the scatter graph always shows its
    figure; the slider holds a null only on a frame without any known
    payload (its initial value [[NaN, NaN]]), and a user's move never puts
    one there. *)
Theorem scatter_always_shown df st :
  app_reachable df st ->
  (exists sc, get_scatter_plot df (site_value (inputs st)) (range_value (inputs st)) = Ok sc /\
     shown st PayloadScatterChart = Some (FigScatter sc)) /\
  (In None (range_value (inputs st)) -> min_payload df = None).
Proof.
  intros Hr. pose proof (range_origin_holds df st Hr) as Horig. split.
  - assert (Hp : exists x y, range_value (inputs st) = [x; y])
      by (destruct (range_origin_cases df _ Horig) as [->|(lo & hi & ->)]; eauto).
    destruct Hp as (x & y & Hn). rewrite Hn.
    destruct (get_scatter_plot_pair df (site_value (inputs st)) x y) as [sc Hsc].
    exists sc. split; [exact Hsc|].
    apply (app_shown_consistent df st Hr PayloadScatterChart). simpl. by rewrite Hn, Hsc.
  - intros Hnull. destruct Horig as [Hinit|(a & b & Hab & _)%slider_choice_shape].
    + rewrite Hinit in Hnull. destruct (min_max_payload_spec df) as (_ & _ & Hmax).
      destruct Hnull as [<-|[Hm|[]]]; [done|]. apply Hmax. by rewrite Hm.
    + rewrite Hab in Hnull. by destruct Hnull as [|[|[]]].
Qed.

Lemma scatter_always_shown_witness :
  app_reachable two_launches moved_slider /\
  exists sc, get_scatter_plot two_launches (Some "ALL"%string) [Some 0; Some 5000] = Ok sc /\
    shown moved_slider PayloadScatterChart = Some (FigScatter sc).
Proof.
  assert (H : app_reachable two_launches moved_slider).
  { apply reachable_step; [apply initial_reachable|reflexivity]. }
  split; [exact H|]. exact (proj1 (scatter_always_shown two_launches _ H)).
Defined.

(** C7: whenever the slider holds two numbers [[lo, hi]], the scatter
    graph shows a figure, and every point it draws has a known payload
    within [[lo, hi]]: launches without a payload are never drawn. *)
Theorem scatter_points_in_range df st lo hi :
  app_reachable df st -> range_value (inputs st) = [Some lo; Some hi] ->
  exists sc, shown st PayloadScatterChart = Some (FigScatter sc) /\
    forall t v, In t (scatter_traces sc) -> In v (trace_x t) ->
      exists m, v = Some m /\ lo <= m <= hi.
Proof.
  intros Hr Hrange. eexists. split.
  - apply (app_shown_consistent df st Hr PayloadScatterChart). simpl.
    rewrite Hrange, get_scatter_plot_rows. reflexivity.
  - intros t v Ht Hx.
    destruct (px_scatter_x _ _ _ _ _ t v Ht Hx) as (r & (_ & Hsel)%filter_In & <-).
    apply andb_true_iff in Hsel as [_ Hin]. unfold in_range in Hin.
    destruct (payload_mass r) as [m|]; [|discriminate]. bool_to_prop. eauto.
Qed.

Lemma scatter_points_in_range_witness :
  app_reachable two_launches (initial (callback two_launches) (initial_inputs two_launches)) /\
  range_value (inputs (initial (callback two_launches) (initial_inputs two_launches))) =
    [Some 500; Some 9600] /\
  exists sc, shown (initial (callback two_launches) (initial_inputs two_launches))
               PayloadScatterChart = Some (FigScatter sc) /\
    forall t v, In t (scatter_traces sc) -> In v (trace_x t) ->
      exists m, v = Some m /\ 500 <= m <= 9600.
Proof.
  split; [apply initial_reachable|split; [reflexivity|]].
  apply (scatter_points_in_range two_launches _ 500 9600 (initial_reachable two_launches)).
  reflexivity.
Defined.

End App.
