(* ===== verification/Loader.v ===== *)
(** * Loader: the DataFrame the program reads, and what runs at start-up

    [spacex_df = pd.read_csv("spacex_launch_dash.csv")] (line 9) as the
    four columns the program names, each present or absent in the CSV,
    with the dtype [read_csv] infers for it (text for the site and the
    booster category, numbers for the payload, with NaN as [None], and
    integers for [class]).  The code that runs when the module is loaded
    (lines 10-11 and 17-48) is [startup]: it reads [spacex_df['Payload
    Mass (kg)']] twice and [spacex_df['Launch Site']] once, and raises
    [KeyError] when the CSV lacks one of them.  The callbacks over the
    table, [table_pie] and [table_scatter], raise where the code does:
    [KeyError] for a column read with [spacex_df[...]], [ValueError] from
    plotly express for a column named by [px.pie]/[px.scatter] that the
    frame lacks; otherwise they are [get_pie_chart] and [get_scatter_plot]
    on the table's rows ([launches]).  The theorems: start-up succeeds
    exactly when the two columns it reads exist, and builds
    [Layout.app_layout] of the rows; a CSV without [class] (or
    without the booster category) starts, but leaves both graphs (or the
    scatter) blank for the whole session. *)

From S2P Require Import Prelude Frame Plotly Callbacks Layout Reactive App.
Import Frame Plotly Callbacks Layout Reactive App.

Module Loader.

(** The columns the program names: ['Launch Site'], ['Payload Mass (kg)'],
    ['class'] and ['Booster Version Category']. *)
Inductive col_name := LaunchSite | PayloadMass | Class | BoosterCategory.

#[export] Instance col_name_eq_dec : EqDecision col_name.
Proof. solve_decision. Defined.

(** The DataFrame, through the four columns the program reads ([None]:
    the CSV has no such column). *)
Record table := mk_table {
  col_launch_site : option (list string);
  col_payload : option (list (option Z));
  col_class : option (list Z);
  col_booster : option (list string)
}.

Definition present {A} (c : option A) : bool := match c with Some _ => true | None => false end.

Definition has_column (t : table) (c : col_name) : bool :=
  match c with
  | LaunchSite => present (col_launch_site t)
  | PayloadMass => present (col_payload t)
  | Class => present (col_class t)
  | BoosterCategory => present (col_booster t)
  end.

(** A DataFrame's columns all have its number of rows. *)
Definition opt_len {A} (c : option (list A)) : list nat := option_list (length <$> c).

Definition col_lengths (t : table) : list nat :=
  opt_len (col_launch_site t) ++ opt_len (col_payload t) ++
  opt_len (col_class t) ++ opt_len (col_booster t).

Definition n_rows (t : table) : nat := default 0%nat (head (col_lengths t)).

Definition table_wf (t : table) : bool := forallb (Nat.eqb (n_rows t)) (col_lengths t).

(** [spacex_df['Launch Site']] and [spacex_df['Payload Mass (kg)']]. *)
Definition site_series (t : table) : result (list string) :=
  match col_launch_site t with Some xs => Ok xs | None => raise KeyError end%dash.

Definition payload_series (t : table) : result (list (option Z)) :=
  match col_payload t with Some xs => Ok xs | None => raise KeyError end%dash.

(** The rows of the table as records.  A column the CSV lacks reads as a
    default, which no callback looks at: each first reads or names the
    columns it uses, and raises when one is missing. *)
Definition launches (t : table) : frame :=
  map (fun k => mk_launch (nth k (default [] (col_launch_site t)) "")
                          (nth k (default [] (col_payload t)) None)
                          (nth k (default [] (col_class t)) 0)
                          (nth k (default [] (col_booster t)) ""))
      (seq 0 (n_rows t)).

(** plotly express checks that the columns its arguments name are columns
    of the frame, and raises [ValueError] otherwise. *)
Definition px_columns (t : table) (cols : list col_name) : result unit :=
  (if forallb (has_column t) cols then Ok () else raise ValueError)%dash.

(** Lines 10-11 and 17-48, run when the module is loaded. *)
Definition startup (t : table) : result layout :=
  pay_min ← payload_series t;
  pay_max ← payload_series t;
  sites ← site_series t;
  mret (mk_layout "SpaceX Launch Records Dashboard"
          (mk_option "All Sites" "ALL" :: map (fun site => mk_option site site) (unique sites))
          (Some "ALL"%string)
          (mk_slider 0 10000 1000 payload_marks [series_min pay_min; series_max pay_max])).

(** Lines 55-66 over the table: [px.pie] names ['Launch Site'] and
    ['class'] in 'ALL' mode; otherwise line 62 reads ['Launch Site'] and
    [px.pie] names ['class']. *)
Definition table_pie (t : table) (entered_site : option string) : result pie_fig :=
  if is_all entered_site then
    _ ← px_columns t [LaunchSite; Class];
    mret (get_pie_chart (launches t) entered_site)
  else
    _ ← site_series t;
    _ ← px_columns t [Class];
    mret (get_pie_chart (launches t) entered_site).

(** Lines 76-91 over the table, in the order of their effects: the
    unpacking (line 77), ['Launch Site'] in single-site mode (line 85),
    ['Payload Mass (kg)'] (lines 79/86), the comparisons with the bounds,
    and [px.scatter] naming the payload, ['class'] and the booster
    category (lines 81-82/88-89). *)
Definition table_scatter (t : table) (entered_site : option string)
    (payload_range : list (option Z)) : result scatter_fig :=
  _ ← unpack2 payload_range;
  _ ← (if is_all entered_site then mret [] else site_series t);
  _ ← payload_series t;
  fig ← get_scatter_plot (launches t) entered_site payload_range;
  _ ← px_columns t [PayloadMass; Class; BoosterCategory];
  mret fig.

(** The two registrations over the table. *)
Definition table_callback (t : table) (o : output_id) (i : ui_inputs) : result figure :=
  match o with
  | SuccessPieChart => p ← table_pie t (site_value i); mret (FigPie p)
  | PayloadScatterChart =>
      sc ← table_scatter t (site_value i) (range_value i); mret (FigScatter sc)
  end.

Definition table_reachable (t : table) : app_state -> Prop :=
  Reactive.reachable deps (table_callback t) apply_event event_target
    (valid_event (launches t)) (initial_inputs (launches t)).

(** The CSV rows of [Layout.two_launches], with all four columns, and
    without the [class] column. *)
Definition csv_two : table :=
  mk_table (Some ["KSC LC-39A"; "VAFB SLC-4E"]%string) (Some [Some 500; Some 9600])
    (Some [1; 0]) (Some ["B5"; "FT"]%string).

Definition csv_no_class : table :=
  mk_table (Some ["KSC LC-39A"; "VAFB SLC-4E"]%string) (Some [Some 500; Some 9600])
    None (Some ["B5"; "FT"]%string).

(** ** Lemmas *)

Lemma wf_n_rows t l : table_wf t = true -> l ∈ col_lengths t -> l = n_rows t.
Proof.
  intros Hwf Hl. unfold table_wf in Hwf. rewrite forallb_forall in Hwf.
  symmetry. apply Nat.eqb_eq, Hwf, list_elem_of_In, Hl.
Qed.

Lemma launches_sites t xs :
  table_wf t = true -> col_launch_site t = Some xs -> map launch_site (launches t) = xs.
Proof.
  intros Hwf Hc. unfold launches. rewrite map_map, Hc.
  rewrite <- (wf_n_rows t (length xs) Hwf) by
    (unfold col_lengths, opt_len; rewrite Hc; set_solver).
  apply map_nth_seq.
Qed.

Lemma launches_payloads t xs :
  table_wf t = true -> col_payload t = Some xs -> map payload_mass (launches t) = xs.
Proof.
  intros Hwf Hc. unfold launches. rewrite map_map, Hc.
  rewrite <- (wf_n_rows t (length xs) Hwf) by
    (unfold col_lengths, opt_len; rewrite Hc; set_solver).
  apply map_nth_seq.
Qed.

Lemma px_columns_missing t c cols :
  has_column t c = false -> c ∈ cols -> px_columns t cols = Err ValueError.
Proof.
  intros Hc Hin. unfold px_columns.
  destruct (forallb (has_column t) cols) eqn:Hall; [|done].
  rewrite forallb_forall in Hall. rewrite Hall in Hc; [done|]. by apply list_elem_of_In.
Qed.

Lemma table_pie_no_class t site :
  has_column t LaunchSite = true -> has_column t Class = false ->
  table_pie t site = Err ValueError.
Proof.
  intros Hs Hc. unfold table_pie, site_series.
  assert (Hin : forall cols, Class ∈ cols -> px_columns t cols = Err ValueError)
    by (intros; by apply (px_columns_missing t Class)).
  destruct (is_all site); [by rewrite Hin; [|set_solver]|].
  simpl in Hs. destruct (col_launch_site t); [|done]. simpl.
  rewrite Hin; [done|set_solver].
Qed.

Lemma table_scatter_never_ok t site range :
  has_column t Class = false \/ has_column t BoosterCategory = false ->
  is_ok (table_scatter t site range) = false.
Proof.
  intros Hmiss. unfold table_scatter.
  do 4 (apply bind_never_ok; intros ?).
  destruct Hmiss as [Hc|Hc];
    [rewrite (px_columns_missing t Class) | rewrite (px_columns_missing t BoosterCategory)];
    solve [done | set_solver].
Qed.

(** What start-up returns. *)
Lemma startup_columns t :
  table_wf t = true ->
  startup t = if has_column t PayloadMass && has_column t LaunchSite
              then Ok (app_layout (launches t)) else Err KeyError.
Proof.
  intros Hwf. unfold startup, payload_series, site_series. cbn [has_column].
  destruct (col_payload t) as [pay|] eqn:Hp; [|done].
  destruct (col_launch_site t) as [sites|] eqn:Hs; [|done]. cbn.
  unfold app_layout, dropdown_options, slider, min_payload, max_payload.
  rewrite (launches_sites t sites), (launches_payloads t pay) by done.
  done.
Qed.

(** ** Theorems *)

(** C17: start-up succeeds exactly when the CSV has the payload column and
    the launch-site column, the two the module-level code reads (lines 10,
    11 and 25), and raises [KeyError] otherwise; when it succeeds, the
    layout it builds from the columns is [Layout.app_layout] of the rows. *)
Theorem startup_result t :
  table_wf t = true ->
  startup t = if has_column t PayloadMass && has_column t LaunchSite
              then Ok (app_layout (launches t)) else Err KeyError.
Proof. apply startup_columns. Qed.

Lemma startup_result_witness :
  table_wf csv_two = true /\ startup csv_two = Ok (app_layout (launches csv_two)).
Proof.
  split; [reflexivity|]. exact (startup_result csv_two eq_refl).
Defined.

(** C18: a CSV without the [class] column passes start-up (C17 needs only
    the payload and the site columns) but both callbacks raise
    [ValueError] on every call, so both graphs stay blank for the whole
    session; without the booster category column the scatter graph stays
    blank.  The spec (section 7) has a malformed input file fatal at
    start-up. *)
Theorem missing_chart_columns t :
  has_column t PayloadMass = true -> has_column t LaunchSite = true ->
  (has_column t Class = false ->
     forall st, table_reachable t st -> forall o, shown st o = None) /\
  (has_column t BoosterCategory = false ->
     forall st, table_reachable t st -> shown st PayloadScatterChart = None).
Proof.
  intros Hp Hs. split.
  - intros Hc st Hr o.
    apply (shown_never_filled deps (table_callback t) apply_event event_target
             (valid_event (launches t)) (initial_inputs (launches t)) o); [|done].
    intros i. destruct o; simpl.
    + by rewrite table_pie_no_class.
    + apply bind_not_ok. by apply table_scatter_never_ok; left.
  - intros Hb st Hr.
    apply (shown_never_filled deps (table_callback t) apply_event event_target
             (valid_event (launches t)) (initial_inputs (launches t))); [|done].
    intros i. simpl. apply bind_not_ok. by apply table_scatter_never_ok; right.
Qed.

Lemma missing_chart_columns_witness :
  table_reachable csv_no_class (initial (table_callback csv_no_class)
                                  (initial_inputs (launches csv_no_class))) /\
  shown (initial (table_callback csv_no_class) (initial_inputs (launches csv_no_class)))
    SuccessPieChart = None.
Proof.
  assert (Hr : table_reachable csv_no_class (initial (table_callback csv_no_class)
                                                (initial_inputs (launches csv_no_class))))
    by constructor.
  split; [exact Hr|].
  exact (proj1 (missing_chart_columns csv_no_class eq_refl eq_refl) eq_refl _ Hr SuccessPieChart).
Defined.

End Loader.
