(* ===== verification/Main.v ===== *)
(** * Main: loading and running the module

    What happens when [src/spacex-dash-app.py] is imported or run, from the
    DataFrame [pd.read_csv] returns (line 9; its parsing of the file's text
    is not modelled): the module-level code builds the layout (lines 10-11
    and 17-48, [Loader.startup]), the Dash application object is created
    with the module's name (line 14), and, only when the file is run as a
    script ([__name__ == '__main__'], lines 93-95), the development server
    starts on port 8050 of every interface with debug mode on.  The
    callbacks registered in between (lines 51-91) are the subject of [App]
    and [Loader].  The file holds definitions only: what they do is
    [Loader.startup_result] and the finding on line 95. *)

From S2P Require Import Prelude Frame Layout Loader.
Import Frame Layout Loader.

Module Main.

(** [app = dash.Dash(__name__)] (line 14), whose [layout] line 17 sets. *)
Record dash_app := mk_dash { dash_name : string; dash_layout : layout }.

(** [app.run(port=8050, host='0.0.0.0', debug=True)] (line 95). *)
Record server := mk_server { srv_port : Z; srv_host : string; srv_debug : bool }.

(** Lines 10-95 under the module name [name], on the DataFrame [t] that
    line 9 read: an exception at any point stops the module before the
    server starts. *)
Definition run_module (name : string) (t : table) : result (dash_app * option server) :=
  lay ← startup t;
  mret (mk_dash name lay,
        if String.eqb name "__main__" then Some (mk_server 8050 "0.0.0.0" true) else None).

End Main.
